(** * Carburacy scoring of [run_generation_transfert_learning.py]

    A shallow embedding of the two functions [calculate_carburacy] and
    [get_carburacy] (lines 130-143 of the script) and the properties the
    specification states about them.

    Number model.  Python floats are idealised as the real numbers of the
    Standard Library: [math.exp] is [exp], [math.log] is built from [ln],
    and [+], [*], [/] are the field operations.  Rounding, overflow,
    infinities and NaN are outside this model.

    Effect model.  The exceptions the arithmetic can raise are kept:
    [math.log] raises [ValueError] on a non-positive argument and
    [ZeroDivisionError] when the base is one, and [/] raises
    [ZeroDivisionError] on a zero divisor.  A computation is a value of
    [py A]: either [Ok a] or [Raise e].  Python's [None] is [None] of
    [option R]. *)

From Stdlib Require Import Reals Lra.
From Stdlib Require Import String Ascii List ZArith Bool Lia.

Open Scope R_scope.

(** ** Exceptions and the error monad *)

Inductive exn : Type :=
| ValueError
| ZeroDivisionError.

Inductive py (A : Type) : Type :=
| Ok (a : A)
| Raise (e : exn).

Arguments Ok {A} a.
Arguments Raise {A} e.

Definition bind {A B : Type} (m : py A) (k : A -> py B) : py B :=
  match m with
  | Ok a => k a
  | Raise e => Raise e
  end.

Notation "x <- m ;; k" := (bind m (fun x => k))
  (at level 61, m at next level, right associativity).

(** ** Python's arithmetic primitives *)

Module math.

(** [math.log(x)] with one argument: the natural logarithm, a domain error
    on [x <= 0]. *)
Definition log1 (x : R) : py R :=
  if Rle_dec x 0 then Raise ValueError else Ok (ln x).

(** The float division [a / b]. *)
Definition truediv (a b : R) : py R :=
  if Req_dec_T b 0 then Raise ZeroDivisionError else Ok (a / b).

(** [math.log(x, base)]: the logarithm of [x] is taken first, then the one
    of [base], then the two are divided. *)
Definition log (x base : R) : py R :=
  num <- log1 x ;;
  den <- log1 base ;;
  truediv num den.

(** [math.exp(x)]. *)
Definition exp (x : R) : py R := Ok (Rtrigo_def.exp x).

End math.

(** ** The two functions of the script *)

(** The local [score_adjustment] of [calculate_carburacy]:
    [math.exp(math.log(normalized_score, alpha))]. *)
Definition score_adjustment (normalized_score alpha : R) : py R :=
  l <- math.log normalized_score alpha ;;
  math.exp l.

(** [def calculate_carburacy(score, emission, beta, alpha=10)] *)
Definition calculate_carburacy
    (score : R) (emission : option R) (beta alpha : R) : py (option R) :=
  match emission with
  | Some emission =>
      let normalized_score := score / 100 in
      adj <- score_adjustment normalized_score alpha ;;
      r <- math.truediv adj (1 + emission * beta) ;;
      Ok (Some r)
  | None => Ok None
  end.

(** [def get_carburacy(score, emission_train, emission_test, alpha=10,
    beta_train=1, beta_test=100)]; the result is the returned triple. *)
Definition get_carburacy
    (score : R) (emission_train emission_test : option R)
    (alpha beta_train beta_test : R)
  : py (option R * option R * option R) :=
  carburacy_train <- calculate_carburacy score emission_train beta_train alpha ;;
  carburacy_test <- calculate_carburacy score emission_test beta_test alpha ;;
  match carburacy_train, carburacy_test with
  | Some ct, Some cs =>
      c <- math.truediv (2 * ct * cs) (ct + cs) ;;
      Ok (carburacy_train, carburacy_test, Some c)
  | _, _ => Ok (carburacy_train, carburacy_test, None)
  end.

(** The default values of the keyword arguments. *)
Definition default_alpha : R := 10.
Definition default_beta_train : R := 1.
Definition default_beta_test : R := 100.

(** [get_carburacy(score, emission_train, emission_test)] with every keyword
    argument left at its default. *)
Definition get_carburacy_default
    (score : R) (emission_train emission_test : option R) :=
  get_carburacy score emission_train emission_test
    default_alpha default_beta_train default_beta_test.

(** ** Closed forms used in the statements *)

(** The literal expression [exp(ln(score/100) / ln(alpha))]. *)
Definition literal_adjustment (score alpha : R) : R :=
  exp (ln (score / 100) / ln alpha).

(** The harmonic mean [2ab / (a + b)]. *)
Definition harmonic_mean (a b : R) : R := (2 * a * b) / (a + b).

(** [x] is within [tol] of [y]. *)
Definition approx (tol x y : R) : Prop := Rabs (x - y) <= tol.

(** ** Concrete scenario 1 of the specification *)

(** [get_carburacy(80, 0.5, 0.01, alpha=10, beta_train=1, beta_test=100)] *)
Definition scenario1 : py (option R * option R * option R) :=
  get_carburacy 80 (Some (1 / 2)) (Some (1 / 100)) 10 1 100.

(** The three numbers the code computes in that scenario. *)
Definition scenario1_train : R := literal_adjustment 80 10 / (1 + 1 / 2 * 1).
Definition scenario1_test : R := literal_adjustment 80 10 / (1 + 1 / 100 * 100).
Definition scenario1_combined : R :=
  2 * scenario1_train * scenario1_test / (scenario1_train + scenario1_test).

(** * The helper functions of the script

    [check_for_last_checkpoint], [check_and_resize_embeddings] and
    [get_dataset_columns] (lines 146-203) and the parts of [main] that use
    them.  The file system, the model and the tokenizer are outside the
    script: the helpers see them through the few queries they make, which are
    inputs here, and act on them through method calls, which are recorded as
    a list of actions in the order the code performs them.  Python integers
    are [Z]. *)

(** An attribute of a Python object: present with a value, or missing, as
    [hasattr] tests it; looking up a missing attribute raises
    [AttributeError]. *)
Inductive attribute (A : Type) : Type :=
| Present (a : A)
| Missing.

Arguments Present {A} a.
Arguments Missing {A}.

(** The texts the helpers raise or log, each with the values formatted
    into it. *)
Inductive message : Type :=
| RequiresTrainDataset
| RequiresValidationDataset
| RequiresTestDataset
| NothingToDo
| OutputDirNotEmpty (output_dir : string)
| CheckpointDetected (last_checkpoint : string)
| DecoderStartTokenNotSet
| ResizingPositionEmbeddings (from_size to_size : Z)
| SourceLengthTooLong (max_source_length max_position_embeddings : Z).

(** The exceptions of the helpers.  [No_attribute] is the [AttributeError]
    of a failed attribute lookup, [Attribute_error] the one the script raises
    itself. *)
Inductive exception : Type :=
| Value_error (m : message)
| Attribute_error (m : message)
| No_attribute (name : string)
| Index_error
| Name_error (name : string)
| Statistics_error.

Inductive outcome (A : Type) : Type :=
| Returns (a : A)
| Raises (e : exception).

Arguments Returns {A} a.
Arguments Raises {A} e.

(** What a helper does to the objects it is given. *)
Inductive action : Type :=
| Log_info (m : message)
| Log_warning (m : message)
| Resize_token_embeddings (new_num_tokens : Z)
| Resize_position_embeddings (new_num_position_embeddings : Z).

(** The fields of [training_args] the helpers read; [do_test] is the
    attribute [main] sets from [do_predict] on line 212. *)
Record TrainingArguments : Type := {
  output_dir : string;
  do_train : bool;
  do_eval : bool;
  do_test : bool;
  overwrite_output_dir : bool;
  resume_from_checkpoint : option string
}.

(** The file-system queries of [check_for_last_checkpoint]:
    [os.path.isdir], [os.listdir] and [get_last_checkpoint]. *)
Record FileSystem : Type := {
  isdir : string -> bool;
  listdir : string -> list string;
  get_last_checkpoint : string -> option string
}.

(** [def check_for_last_checkpoint(training_args, logger)]: what is logged
    and what is returned ([None] also when the function falls off its
    end). *)
Definition check_for_last_checkpoint
    (fs : FileSystem) (training_args : TrainingArguments)
  : list action * outcome (option string) :=
  if isdir fs (output_dir training_args) then
    if do_train training_args && negb (overwrite_output_dir training_args) then
      let last_checkpoint := get_last_checkpoint fs (output_dir training_args) in
      match last_checkpoint with
      | None =>
          if (0 <? List.length (listdir fs (output_dir training_args)))%nat
          then (nil, Raises (Value_error
                               (OutputDirNotEmpty (output_dir training_args))))
          else (nil, Returns last_checkpoint)
      | Some found =>
          match resume_from_checkpoint training_args with
          | None =>
              (Log_info (CheckpointDetected found) :: nil,
               Returns last_checkpoint)
          | Some _ => (nil, Returns last_checkpoint)
          end
      end
    else (nil, Returns None)
  else (nil, Returns None).


(** What [check_and_resize_embeddings] reads of its four arguments: the
    number of rows of the input embedding matrix, two entries of
    [model.config], [len(tokenizer)], [data_args.max_source_length] and
    [model_args.resize_position_embeddings]. *)
Record Model : Type := {
  embedding_rows : Z;
  decoder_start_token_id : option Z;
  max_position_embeddings : attribute Z
}.

Record EmbeddingArguments : Type := {
  tokenizer_length : Z;
  max_source_length : Z;
  resize_position_embeddings : attribute (option bool)
}.

(** [def check_and_resize_embeddings(model, tokenizer, data_args,
    model_args)].  The two configuration entries are read after the token
    embeddings may have been resized; that call does not change them. *)
Definition check_and_resize_embeddings
    (model : Model) (args : EmbeddingArguments)
  : list action * outcome unit :=
  let embedding_size := embedding_rows model in
  let resized :=
    if (embedding_size <? tokenizer_length args)%Z
    then Resize_token_embeddings (tokenizer_length args) :: nil
    else nil in
  match decoder_start_token_id model with
  | None => (resized, Raises (Value_error DecoderStartTokenNotSet))
  | Some _ =>
      match max_position_embeddings model with
      | Present positions =>
          if (positions <? max_source_length args)%Z then
            match resize_position_embeddings args with
            | Missing =>
                (resized, Raises (No_attribute "resize_position_embeddings"%string))
            | Present None | Present (Some true) =>
                (resized
                   ++ Log_warning (ResizingPositionEmbeddings
                                     positions (max_source_length args))
                   :: Resize_position_embeddings (max_source_length args)
                   :: nil,
                 Returns tt)
            | Present (Some false) =>
                (resized,
                 Raises (Value_error
                           (SourceLengthTooLong
                              (max_source_length args) positions)))
            end
          else (resized, Returns tt)
      | Missing => (resized, Returns tt)
      end
  end.

(** The [ModelArguments] dataclass of the script (lines 104-128) declares
    [model_name_or_path], [use_peft], [cache_dir] and [use_auth_token]: an
    instance has no [resize_position_embeddings]. *)
Definition script_embedding_arguments
    (tokenizer_len source_length : Z) : EmbeddingArguments :=
  {| tokenizer_length := tokenizer_len;
     max_source_length := source_length;
     resize_position_embeddings := Missing |}.

(** A [DatasetDict]: the dataset of each split that exists, of which the
    helpers read [column_names]. *)
Record Dataset : Type := { column_names : list string }.

Definition DatasetDict : Type := string -> option Dataset.

(** [def get_dataset_columns(raw_datasets, training_args)] *)
Definition get_dataset_columns
    (raw_datasets : DatasetDict) (training_args : TrainingArguments)
  : outcome (string * list string) :=
  if do_train training_args then
    match raw_datasets "train"%string with
    | None => Raises (Value_error RequiresTrainDataset)
    | Some dataset => Returns ("train"%string, column_names dataset)
    end
  else if do_eval training_args then
    match raw_datasets "validation"%string with
    | None => Raises (Value_error RequiresValidationDataset)
    | Some dataset => Returns ("validation"%string, column_names dataset)
    end
  else if do_test training_args then
    match raw_datasets "test"%string with
    | None => Raises (Value_error RequiresTestDataset)
    | Some dataset => Returns ("test"%string, column_names dataset)
    end
  else Raises (Attribute_error NothingToDo).

(** The same resolution written out in [main] (lines 268-282): the column
    names, or [None] when [main] logs that there is nothing to do and
    returns. *)
Definition main_column_names
    (raw_datasets : DatasetDict) (training_args : TrainingArguments)
  : list action * outcome (option (list string)) :=
  if do_train training_args then
    match raw_datasets "train"%string with
    | None => (nil, Raises (Value_error RequiresTrainDataset))
    | Some dataset => (nil, Returns (Some (column_names dataset)))
    end
  else if do_eval training_args then
    match raw_datasets "validation"%string with
    | None => (nil, Raises (Value_error RequiresValidationDataset))
    | Some dataset => (nil, Returns (Some (column_names dataset)))
    end
  else if do_test training_args then
    match raw_datasets "test"%string with
    | None => (nil, Raises (Value_error RequiresTestDataset))
    | Some dataset => (nil, Returns (Some (column_names dataset)))
    end
  else (Log_info NothingToDo :: nil, Returns None).

(** * Pure parts of [main]

    The run name, the selection of the example pairs, the rewriting of the
    padding tokens, the grouping of the parameters for the optimizer and the
    arithmetic of two of the metrics.  Each definition is the statement or
    the comprehension named in its comment; calls into the tokenizer, the
    model and the metric libraries are not part of them. *)

Definition outcome_bind {A B : Type} (m : outcome A) (k : A -> outcome B)
  : outcome B :=
  match m with
  | Returns a => k a
  | Raises e => Raises e
  end.

(** ** The output directory and the run name (lines 213-222) *)

(** [f"{value}"] for an optional string: [None] is formatted as the text
    [None]. *)
Definition format_optional (value : option string) : string :=
  match value with
  | Some text => text
  | None => "None"%string
  end.

(** [s.partition('/')[-1]]: what follows the first slash, the empty string
    when there is none. *)
Fixpoint partition_slash_last (s : string) : string :=
  match s with
  | EmptyString => EmptyString
  | String c rest =>
      if Ascii.eqb c "/"%char then rest else partition_slash_last rest
  end.

(** [s.split("/")] *)
Fixpoint split_slash (s : string) : list string :=
  match s with
  | EmptyString => EmptyString :: nil
  | String c rest =>
      if Ascii.eqb c "/"%char then EmptyString :: split_slash rest
      else
        match split_slash rest with
        | first :: others => String c first :: others
        | nil => String c EmptyString :: nil
        end
  end.

(** The new [training_args.output_dir]:
    [f"{output_dir}/{task_name}_{model_name_or_path.partition('/')[-1]}_{subset_name}"]. *)
Definition run_output_dir
    (old_output_dir : string) (task_name : option string)
    (model_name_or_path : string) (subset_name : option string) : string :=
  (old_output_dir ++ "/" ++ format_optional task_name ++ "_"
   ++ partition_slash_last model_name_or_path ++ "_"
   ++ format_optional subset_name)%string.

(** The run name given to [wandb.init]:
    [training_args.output_dir.split("/")[1]]. *)
Definition wandb_run_name (new_output_dir : string) : outcome string :=
  match nth_error (split_slash new_output_dir) 1 with
  | Some name => Returns name
  | None => Raises Index_error
  end.

(** ** The example pairs of [preprocess_function] (lines 317-323) *)

(** The truth value of a column entry: [None] and the empty string are
    false. *)
Definition truthy (entry : option string) : bool :=
  match entry with
  | Some text => negb (String.eqb text ""%string)
  | None => false
  end.

(** The loop over [range(len(examples[text_column]))], with the two lists
    it appends to.  The summary of a row is looked up only when its text is
    true. *)
Fixpoint select_pairs_loop
    (texts summaries : list (option string)) (indices : list nat)
    (inputs targets : list (option string))
  : outcome (list (option string) * list (option string)) :=
  match indices with
  | nil => Returns (inputs, targets)
  | i :: rest =>
      match nth_error texts i with
      | None => Raises Index_error
      | Some text =>
          if truthy text then
            match nth_error summaries i with
            | None => Raises Index_error
            | Some summary =>
                if truthy summary then
                  select_pairs_loop texts summaries rest
                    (inputs ++ text :: nil) (targets ++ summary :: nil)
                else select_pairs_loop texts summaries rest inputs targets
            end
          else select_pairs_loop texts summaries rest inputs targets
      end
  end.

Definition select_pairs (texts summaries : list (option string))
  : outcome (list (option string) * list (option string)) :=
  select_pairs_loop texts summaries (seq 0 (List.length texts)) nil nil.

(** [inputs = [prefix + inp for inp in inputs]]: the name [prefix] is
    assigned nowhere in the script, so its first evaluation raises
    [NameError]; with no input it is never evaluated. *)
Definition prefix_inputs (inputs : list (option string))
  : outcome (list (option string)) :=
  match inputs with
  | nil => Returns nil
  | _ :: _ => Raises (Name_error "prefix"%string)
  end.

(** [preprocess_function] up to and including the prefixing of the
    inputs: the lists [inputs] and [targets] handed to the tokenizer. *)
Definition preprocess_function_pairs (texts summaries : list (option string))
  : outcome (list (option string) * list (option string)) :=
  outcome_bind (select_pairs texts summaries) (fun pairs =>
  outcome_bind (prefix_inputs (fst pairs)) (fun inputs =>
  Returns (inputs, snd pairs))).

(** ** The padding tokens of the labels *)

(** [[(l if l != tokenizer.pad_token_id else -100) for l in label] for
    label in labels["input_ids"]] of [preprocess_function]
    (lines 332-334). *)
Definition mask_pad_tokens (pad_token_id : Z) (labels : list (list Z))
  : list (list Z) :=
  map (fun label =>
         map (fun l => if negb (l =? pad_token_id)%Z then l else (-100)%Z)
             label)
      labels.

(** [np.where(labels != -100, labels, tokenizer.pad_token_id)] of
    [compute_metrics] (lines 443-444), on the rows of the array. *)
Definition restore_pad_tokens (pad_token_id : Z) (labels : list (list Z))
  : list (list Z) :=
  map (fun label =>
         map (fun l => if negb (l =? -100)%Z then l else pad_token_id) label)
      labels.

(** ** The parameter groups of the optimizer (lines 366-376) *)

(** [nd in n] for a non-empty [nd]: [nd] occurs in [n]. *)
Definition occurs_in (nd n : string) : bool :=
  match String.index 0 nd n with
  | Some _ => true
  | None => false
  end.

Definition no_decay : list string :=
  "bias"%string :: "LayerNorm.weight"%string :: "layer_norm.weight"%string
  :: nil.

(** [any(nd in n for nd in no_decay)] *)
Definition any_no_decay (n : string) : bool :=
  existsb (fun nd => occurs_in nd n) no_decay.

(** The two groups, each with its [weight_decay]; [named_parameters] is
    the list of the pairs of a name and a parameter. *)
Definition optimizer_grouped_parameters
    {P : Type} (named_parameters : list (string * P)) (weight_decay : R)
  : list (list P * R) :=
  (map snd (filter (fun np => negb (any_no_decay (fst np))) named_parameters),
   weight_decay)
  :: (map snd (filter (fun np => any_no_decay (fst np)) named_parameters), 0)
  :: nil.

(** ** The arithmetic of two metrics of [compute_metrics] *)

(** [sum] of a list of numbers. *)
Definition sum_list (data : list R) : R := fold_right Rplus 0 data.




(** [np.mean] and [np.var] of a non-empty list: the mean and the mean of
    the squared deviations from it. *)
Definition np_mean (data : list R) : R :=
  sum_list data / INR (List.length data).

Definition np_var (data : list R) : R :=
  np_mean (map (fun x => (x - np_mean data) ^ 2) data).

(** The number that is rounded into [result["R"]] (lines 464-465), from the
    three ROUGE entries of [result]. *)
Definition rouge_R (rouge1 rouge2 rougeL : R) : R :=
  np_mean (rouge1 :: rouge2 :: rougeL :: nil)
  / (1 + np_var (rouge1 / 100 :: rouge2 / 100 :: rougeL / 100 :: nil)).

(** ** Evaluation lemmas for the primitives *)

Section Primitives.

Lemma log1_pos (x : R) : 0 < x -> math.log1 x = Ok (ln x).
Proof.
  intros Hx. unfold math.log1.
  destruct (Rle_dec x 0) as [Hle | _]; [lra | reflexivity].
Qed.

Lemma log1_nonpos (x : R) : x <= 0 -> math.log1 x = Raise ValueError.
Proof.
  intros Hx. unfold math.log1.
  destruct (Rle_dec x 0) as [_ | Hn]; [reflexivity | contradiction].
Qed.

Lemma truediv_nonzero (a b : R) : b <> 0 -> math.truediv a b = Ok (a / b).
Proof.
  intros Hb. unfold math.truediv.
  destruct (Req_dec_T b 0) as [E | _]; [contradiction | reflexivity].
Qed.

Lemma truediv_zero (a b : R) :
  b = 0 -> math.truediv a b = Raise ZeroDivisionError.
Proof.
  intros Hb. unfold math.truediv.
  destruct (Req_dec_T b 0) as [_ | N]; [reflexivity | contradiction].
Qed.

Lemma ln_base_nonzero (alpha : R) : 0 < alpha -> alpha <> 1 -> ln alpha <> 0.
Proof. intros Hpos Hne. apply ln_neq_0; assumption. Qed.

Lemma log_defined (x base : R) :
  0 < x -> 0 < base -> base <> 1 ->
  math.log x base = Ok (ln x / ln base).
Proof.
  intros Hx Hb Hb1. unfold math.log.
  rewrite (log1_pos x Hx). cbn.
  rewrite (log1_pos base Hb). cbn.
  apply truediv_nonzero, ln_base_nonzero; assumption.
Qed.

Lemma log_nonpos (x base : R) :
  x <= 0 -> math.log x base = Raise ValueError.
Proof.
  intros Hx. unfold math.log. rewrite (log1_nonpos x Hx). reflexivity.
Qed.



End Primitives.

(** ** Evaluation lemmas for [calculate_carburacy] *)

Section Calculate.

Variables score beta alpha : R.

Lemma score_adjustment_defined (x : R) :
  0 < x -> 0 < alpha -> alpha <> 1 ->
  score_adjustment x alpha = Ok (exp (ln x / ln alpha)).
Proof.
  intros Hx Ha Ha1. unfold score_adjustment.
  rewrite (log_defined x alpha Hx Ha Ha1). reflexivity.
Qed.

Lemma score_adjustment_nonpos (x : R) :
  x <= 0 -> score_adjustment x alpha = Raise ValueError.
Proof.
  intros Hx. unfold score_adjustment.
  rewrite (log_nonpos x alpha Hx). reflexivity.
Qed.

Lemma calculate_carburacy_defined (emission : R) :
  0 < score -> 0 < alpha -> alpha <> 1 -> 1 + emission * beta <> 0 ->
  calculate_carburacy score (Some emission) beta alpha
  = Ok (Some (literal_adjustment score alpha / (1 + emission * beta))).
Proof.
  intros Hs Ha Ha1 Hd. unfold calculate_carburacy.
  rewrite score_adjustment_defined by (assumption || lra). cbn.
  rewrite truediv_nonzero by assumption. reflexivity.
Qed.

Lemma calculate_carburacy_nonpos (emission : R) :
  score <= 0 ->
  calculate_carburacy score (Some emission) beta alpha = Raise ValueError.
Proof.
  intros Hs. unfold calculate_carburacy.
  rewrite score_adjustment_nonpos by lra. reflexivity.
Qed.


Lemma calculate_carburacy_none : calculate_carburacy score None beta alpha = Ok None.
Proof. reflexivity. Qed.

End Calculate.

(** ** Evaluation lemmas for [get_carburacy] *)

Section Combine.

Variables score alpha beta_train beta_test : R.
Variables emission_train emission_test : option R.

Let phase_train := calculate_carburacy score emission_train beta_train alpha.
Let phase_test := calculate_carburacy score emission_test beta_test alpha.
Let combined :=
  get_carburacy score emission_train emission_test alpha beta_train beta_test.

Lemma get_carburacy_both (a b : R) :
  phase_train = Ok (Some a) -> phase_test = Ok (Some b) -> a + b <> 0 ->
  combined = Ok (Some a, Some b, Some (2 * a * b / (a + b))).
Proof.
  unfold phase_train, phase_test, combined, get_carburacy.
  intros -> -> Hsum. cbn.
  rewrite truediv_nonzero by assumption. reflexivity.
Qed.

Lemma get_carburacy_zero_sum (a b : R) :
  phase_train = Ok (Some a) -> phase_test = Ok (Some b) -> a + b = 0 ->
  combined = Raise ZeroDivisionError.
Proof.
  unfold phase_train, phase_test, combined, get_carburacy.
  intros -> -> Hsum. cbn.
  rewrite truediv_zero by assumption. reflexivity.
Qed.

Lemma get_carburacy_missing (ct cs : option R) :
  phase_train = Ok ct -> phase_test = Ok cs -> ct = None \/ cs = None ->
  combined = Ok (ct, cs, None).
Proof.
  unfold phase_train, phase_test, combined, get_carburacy.
  intros -> -> [-> | ->]; cbn; [reflexivity | destruct ct; reflexivity].
Qed.

(** A returned triple carries the two phase results in its first two
    components. *)
Lemma get_carburacy_returns (ct cs c : option R) :
  combined = Ok (ct, cs, c) ->
  phase_train = Ok ct /\ phase_test = Ok cs.
Proof.
  unfold phase_train, phase_test, combined, get_carburacy.
  destruct (calculate_carburacy score emission_train beta_train alpha)
    as [rt | ?]; cbn; [| discriminate].
  destruct (calculate_carburacy score emission_test beta_test alpha)
    as [rs | ?]; cbn; [| discriminate].
  destruct rt as [a |], rs as [b |]; cbn.
  - destruct (math.truediv (2 * a * b) (a + b)); cbn; [| discriminate].
    intros H; inversion H; subst; split; reflexivity.
  - intros H; inversion H; subst; split; reflexivity.
  - intros H; inversion H; subst; split; reflexivity.
  - intros H; inversion H; subst; split; reflexivity.
Qed.

End Combine.

(** ** The literal computation *)



(** ** Absent emissions *)

(** C4.  With no emission [calculate_carburacy] returns [None] whatever
    the score, beta and alpha; [get_carburacy] with an absent training
    emission returns [(None, carburacy_test, None)], and symmetrically for
    an absent test emission. *)
Theorem absent_emission_is_none (score alpha beta_train beta_test : R) :
  (forall beta : R, calculate_carburacy score None beta alpha = Ok None)
  /\
  (forall (emission_test : option R) (cs : option R),
     calculate_carburacy score emission_test beta_test alpha = Ok cs ->
     get_carburacy score None emission_test alpha beta_train beta_test
     = Ok (None, cs, None))
  /\
  (forall (emission_train : option R) (ct : option R),
     calculate_carburacy score emission_train beta_train alpha = Ok ct ->
     get_carburacy score emission_train None alpha beta_train beta_test
     = Ok (ct, None, None)).
Proof.
  split; [reflexivity |]. split.
  - intros emission_test cs Hcs.
    apply get_carburacy_missing; [reflexivity | exact Hcs | left; reflexivity].
  - intros emission_train ct Hct.
    apply get_carburacy_missing; [exact Hct | reflexivity | right; reflexivity].
Qed.

Lemma absent_emission_is_none_witness :
  calculate_carburacy 80 (Some (1 / 100)) 100 10
  = Ok (Some (literal_adjustment 80 10 / (1 + 1 / 100 * 100)))
  /\
  get_carburacy 80 None (Some (1 / 100)) 10 1 100
  = Ok (None, Some (literal_adjustment 80 10 / (1 + 1 / 100 * 100)), None).
Proof.
  assert (H : calculate_carburacy 80 (Some (1 / 100)) 100 10
              = Ok (Some (literal_adjustment 80 10 / (1 + 1 / 100 * 100)))).
  { apply calculate_carburacy_defined; lra. }
  split; [exact H |].
  exact (proj1 (proj2 (absent_emission_is_none 80 10 1 100)) _ _ H).
Defined.

(** ** Domain errors *)

(** C7.  A score that is zero or negative, with a present emission, makes
    [calculate_carburacy] raise the domain error of [math.log]; nothing is
    returned, in particular not zero. *)
Theorem nonpositive_score_raises (score emission beta alpha : R) :
  score <= 0 ->
  calculate_carburacy score (Some emission) beta alpha = Raise ValueError
  /\ calculate_carburacy score (Some emission) beta alpha <> Ok (Some 0).
Proof.
  intros Hs.
  rewrite (calculate_carburacy_nonpos score beta alpha emission Hs).
  split; [reflexivity | discriminate].
Qed.

Lemma nonpositive_score_raises_witness :
  0 <= 0 /\ calculate_carburacy 0 (Some (1 / 2)) 1 10 = Raise ValueError.
Proof.
  split; [lra |].
  apply (proj1 (nonpositive_score_raises 0 (1 / 2) 1 10 (Rle_refl 0))).
Defined.

(** ** The combined value *)

(** C5.  For every score and every pair of emissions: the third component
    of a triple returned by [get_carburacy] is the harmonic mean
    [2 * c_train * c_test / (c_train + c_test)] of the two phase values when
    both are numbers, and [None] when either is [None]; and the triple is
    indeed returned whenever the two phases return (with a non-zero sum when
    both are numbers). *)
Theorem combined_is_harmonic_mean
    (score : R) (emission_train emission_test : option R)
    (alpha beta_train beta_test : R) :
  (forall ct cs c : option R,
     get_carburacy score emission_train emission_test alpha beta_train beta_test
     = Ok (ct, cs, c) ->
     calculate_carburacy score emission_train beta_train alpha = Ok ct /\
     calculate_carburacy score emission_test beta_test alpha = Ok cs /\
     (forall a b : R,
        ct = Some a -> cs = Some b -> c = Some (2 * a * b / (a + b))) /\
     (ct = None \/ cs = None -> c = None))
  /\
  (forall a b : R,
     calculate_carburacy score emission_train beta_train alpha = Ok (Some a) ->
     calculate_carburacy score emission_test beta_test alpha = Ok (Some b) ->
     a + b <> 0 ->
     get_carburacy score emission_train emission_test alpha beta_train beta_test
     = Ok (Some a, Some b, Some (2 * a * b / (a + b))))
  /\
  (forall ct cs : option R,
     calculate_carburacy score emission_train beta_train alpha = Ok ct ->
     calculate_carburacy score emission_test beta_test alpha = Ok cs ->
     ct = None \/ cs = None ->
     get_carburacy score emission_train emission_test alpha beta_train beta_test
     = Ok (ct, cs, None)).
Proof.
  split; [| split].
  - intros ct cs c Hret.
    destruct (get_carburacy_returns _ _ _ _ _ _ _ _ _ Hret) as [Ht Hs].
    split; [exact Ht |]. split; [exact Hs |]. split.
    + intros a b -> ->.
      destruct (Req_dec_T (a + b) 0) as [Hz | Hnz].
      * rewrite (get_carburacy_zero_sum _ _ _ _ _ _ a b Ht Hs Hz) in Hret.
        discriminate.
      * rewrite (get_carburacy_both _ _ _ _ _ _ a b Ht Hs Hnz) in Hret.
        inversion Hret. reflexivity.
    + intros Hnone.
      rewrite (get_carburacy_missing _ _ _ _ _ _ ct cs Ht Hs Hnone) in Hret.
      inversion Hret. reflexivity.
  - intros a b. apply get_carburacy_both.
  - intros ct cs. apply get_carburacy_missing.
Qed.

Lemma combined_is_harmonic_mean_witness :
  get_carburacy 100 (Some 0) (Some 1) 10 1 1
  = Ok (Some (literal_adjustment 100 10 / (1 + 0 * 1)),
        Some (literal_adjustment 100 10 / (1 + 1 * 1)),
        Some (2 * (literal_adjustment 100 10 / (1 + 0 * 1))
                * (literal_adjustment 100 10 / (1 + 1 * 1))
              / (literal_adjustment 100 10 / (1 + 0 * 1)
                 + literal_adjustment 100 10 / (1 + 1 * 1)))).
Proof.
  apply (proj1 (proj2 (combined_is_harmonic_mean 100 (Some 0) (Some 1) 10 1 1))).
  - apply calculate_carburacy_defined; lra.
  - apply calculate_carburacy_defined; lra.
  - assert (H : 0 < literal_adjustment 100 10) by apply exp_pos.
    intros E.
    assert (H0 : literal_adjustment 100 10 / (1 + 0 * 1)
                 = literal_adjustment 100 10) by (field; lra).
    assert (H1 : literal_adjustment 100 10 / (1 + 1 * 1)
                 = literal_adjustment 100 10 / 2) by (field; lra).
    rewrite H0, H1 in E. lra.
Defined.

(** ** The unguarded division of the harmonic mean *)

Lemma literal_adjustment_full (alpha : R) : literal_adjustment 100 alpha = 1.
Proof.
  unfold literal_adjustment.
  replace (100 / 100) with 1 by (field; lra).
  rewrite ln_1. unfold Rdiv. rewrite Rmult_0_l. apply exp_0.
Qed.

Lemma full_score_no_emission :
  calculate_carburacy 100 (Some 0) 1 10 = Ok (Some 1).
Proof.
  rewrite calculate_carburacy_defined by lra.
  rewrite literal_adjustment_full. do 2 f_equal. field.
Qed.

Lemma full_score_negative_emission :
  calculate_carburacy 100 (Some (- (1 / 50))) 100 10 = Ok (Some (- 1)).
Proof.
  rewrite calculate_carburacy_defined by lra.
  rewrite literal_adjustment_full. do 2 f_equal. field.
Qed.

(** C8, as stated, fails: with score 100, training emission 0 and test
    emission -0.02 (default alpha and betas) the two phase values are 1 and
    -1, their sum is 0, and [get_carburacy] raises [ZeroDivisionError]; it
    returns no triple, hence none whose combined value is [None]. *)
Lemma zero_sum_is_not_guarded :
  calculate_carburacy 100 (Some 0) 1 10 = Ok (Some 1) /\
  calculate_carburacy 100 (Some (- (1 / 50))) 100 10 = Ok (Some (- 1)) /\
  1 + - 1 = 0 /\
  get_carburacy 100 (Some 0) (Some (- (1 / 50))) 10 1 100
  = Raise ZeroDivisionError /\
  get_carburacy 100 (Some 0) (Some (- (1 / 50))) 10 1 100
  <> Ok (Some 1, Some (- 1), None).
Proof.
  assert (Hraise : get_carburacy 100 (Some 0) (Some (- (1 / 50))) 10 1 100
                   = Raise ZeroDivisionError).
  { apply (get_carburacy_zero_sum _ _ _ _ _ _ 1 (- 1)).
    - exact full_score_no_emission.
    - exact full_score_negative_emission.
    - lra. }
  split; [exact full_score_no_emission |].
  split; [exact full_score_negative_emission |].
  split; [lra |].
  split; [exact Hraise |].
  rewrite Hraise. discriminate.
Qed.

(** C8, amended.  Whenever both phase carburacies are numbers and their sum
    is zero, [get_carburacy] raises [ZeroDivisionError]: the division of the
    harmonic mean is not guarded. *)
Theorem zero_sum_raises
    (score : R) (emission_train emission_test : option R)
    (alpha beta_train beta_test a b : R) :
  calculate_carburacy score emission_train beta_train alpha = Ok (Some a) ->
  calculate_carburacy score emission_test beta_test alpha = Ok (Some b) ->
  a + b = 0 ->
  get_carburacy score emission_train emission_test alpha beta_train beta_test
  = Raise ZeroDivisionError.
Proof. apply get_carburacy_zero_sum. Qed.

Lemma zero_sum_raises_witness :
  get_carburacy 100 (Some 0) (Some (- 2)) 10 1 1 = Raise ZeroDivisionError.
Proof.
  apply (zero_sum_raises 100 (Some 0) (Some (- 2)) 10 1 1 1 (- 1)).
  - exact full_score_no_emission.
  - rewrite calculate_carburacy_defined by lra.
    rewrite literal_adjustment_full. do 2 f_equal. field.
  - lra.
Defined.

(** ** The score adjustment *)

Lemma ln_tenth : ln (1 / 10) / ln 10 = - 1.
Proof.
  replace (1 / 10) with (/ 10) by (field; lra).
  rewrite ln_Rinv by lra.
  field. apply ln_base_nonzero; lra.
Qed.

Lemma exp_minus_one_lower : 1 / 3 <= exp (- 1).
Proof.
  replace (- 1) with (Ropp 1) by lra.
  rewrite exp_Ropp.
  assert (H3 := exp_le_3). assert (Hp := exp_pos 1).
  replace (1 / 3) with (/ 3) by (field; lra).
  apply Rinv_le_contravar; assumption.
Qed.

(** C2, as stated, fails: for alpha = 10 and a normalized score of 0.1 the
    computed adjustment is [exp(-1)], which is at least 1/3 and so is not
    0.1. *)
Lemma adjustment_is_not_identity :
  1 < 10 /\ 0 < 1 / 10 <= 1 /\
  score_adjustment (1 / 10) 10 = Ok (exp (- 1)) /\
  score_adjustment (1 / 10) 10 <> Ok (1 / 10).
Proof.
  assert (Hadj : score_adjustment (1 / 10) 10 = Ok (exp (- 1))).
  { rewrite score_adjustment_defined by lra. rewrite ln_tenth. reflexivity. }
  split; [lra |]. split; [lra |]. split; [exact Hadj |].
  rewrite Hadj. intros E. injection E as E'.
  assert (H := exp_minus_one_lower). lra.
Qed.

(** C2, amended.  For every alpha > 1 and every normalized score [x] in
    (0, 1] the computed adjustment is [exp(log_alpha(x))], that is
    [x ^ (1 / ln alpha)]; it is [x] itself exactly when [x = 1] or
    [alpha = e]. *)
Theorem adjustment_is_power (x alpha : R) :
  1 < alpha -> 0 < x <= 1 ->
  score_adjustment x alpha = Ok (Rpower x (/ ln alpha)) /\
  (score_adjustment x alpha = Ok x <-> x = 1 \/ alpha = exp 1).
Proof.
  intros Ha [Hx0 Hx1].
  assert (Hln : ln alpha <> 0) by (apply ln_base_nonzero; lra).
  assert (Hadj : score_adjustment x alpha = Ok (exp (ln x / ln alpha))).
  { apply score_adjustment_defined; lra. }
  split.
  - rewrite Hadj. unfold Rpower, Rdiv. rewrite Rmult_comm. reflexivity.
  - rewrite Hadj. split.
    + intros E. injection E as E'.
      assert (El : ln x / ln alpha = ln x).
      { rewrite <- (ln_exp (ln x / ln alpha)). rewrite E'. reflexivity. }
      assert (Ez : ln x * (1 - ln alpha) = 0).
      { apply (f_equal (fun t => t * ln alpha)) in El. cbv beta in El.
        unfold Rdiv in El. rewrite Rmult_assoc, Rinv_l, Rmult_1_r in El
          by assumption.
        lra. }
      apply Rmult_integral in Ez. destruct Ez as [Ez | Ez].
      * left. apply ln_inv; [assumption | lra |]. rewrite ln_1. exact Ez.
      * right. rewrite <- (exp_ln alpha) by lra. f_equal. lra.
    + intros [-> | ->].
      * rewrite ln_1. unfold Rdiv. rewrite Rmult_0_l, exp_0. reflexivity.
      * rewrite ln_exp. unfold Rdiv. rewrite Rinv_1, Rmult_1_r.
        rewrite exp_ln by assumption. reflexivity.
Qed.

Lemma adjustment_is_power_witness :
  (1 < 10 /\ 0 < 1 / 10 <= 1) /\
  score_adjustment (1 / 10) 10 = Ok (Rpower (1 / 10) (/ ln 10)).
Proof.
  split; [lra |].
  apply (proj1 (adjustment_is_power (1 / 10) 10 ltac:(lra) ltac:(lra))).
Defined.

(** ** Numeric bounds for the concrete scenario *)

Section Bounds.

Lemma exp_nat_mult (n : nat) (t : R) : exp (INR n * t) = exp t ^ n.
Proof.
  induction n as [| n IH].
  - simpl. rewrite Rmult_0_l. apply exp_0.
  - rewrite S_INR, Rmult_plus_distr_r, Rmult_1_l, exp_plus, IH.
    simpl. apply Rmult_comm.
Qed.

(** [(1 + y/8)^8 <= exp y] as soon as the base is not negative. *)
Lemma exp_eighth_lower (y : R) : 0 <= 1 + y / 8 -> (1 + y / 8) ^ 8 <= exp y.
Proof.
  intros Hb.
  replace (exp y) with (exp (INR 8 * (y / 8))).
  - rewrite exp_nat_mult.
    apply pow_incr. split; [exact Hb | apply exp_ineq1_le].
  - f_equal. rewrite INR_IZR_INZ. simpl. field.
Qed.

(** [exp (-y) <= 1 / (1 + y/8)^8] for [y >= 0]. *)
Lemma exp_eighth_upper (y : R) : 0 <= y -> exp (- y) <= / (1 + y / 8) ^ 8.
Proof.
  intros Hy. rewrite exp_Ropp.
  assert (Hpos : 0 < (1 + y / 8) ^ 8) by (apply pow_lt; lra).
  apply Rinv_le_contravar; [exact Hpos |].
  apply exp_eighth_lower. lra.
Qed.

Lemma ln_pow_nat (x : R) (n : nat) : 0 < x -> ln (x ^ n) = INR n * ln x.
Proof. intros Hx. apply ln_pow. exact Hx. Qed.

(** [3/31 < log10(5/4) < 10/103], from [10^3 < (5/4)^31] and
    [(5/4)^103 < 10^10]. *)
Lemma log10_five_fourths : 3 / 31 < ln (5 / 4) / ln 10 < 10 / 103.
Proof.
  assert (HT : 0 < ln 10).
  { rewrite <- ln_1. apply ln_increasing; lra. }
  assert (Hlo : INR 3 * ln 10 < INR 31 * ln (5 / 4)).
  { rewrite <- !ln_pow_nat by lra.
    apply ln_increasing; [apply pow_lt; lra | cbv [pow]; lra]. }
  assert (Hhi : INR 103 * ln (5 / 4) < INR 10 * ln 10).
  { rewrite <- !ln_pow_nat by lra.
    apply ln_increasing; [apply pow_lt; lra | cbv [pow]; lra]. }
  rewrite !INR_IZR_INZ in Hlo, Hhi. simpl in Hlo, Hhi.
  split.
  - apply (Rmult_lt_reg_r (ln 10)); [exact HT |].
    unfold Rdiv at 2. rewrite Rmult_assoc, Rinv_l, Rmult_1_r by lra. lra.
  - apply (Rmult_lt_reg_r (ln 10)); [exact HT |].
    unfold Rdiv at 1. rewrite Rmult_assoc, Rinv_l, Rmult_1_r by lra. lra.
Qed.

(** The exponent [log10(0.8)] of the scenario. *)
Lemma log10_four_fifths :
  - (10 / 103) < ln (80 / 100) / ln 10 < - (3 / 31).
Proof.
  assert (E : ln (80 / 100) = - ln (5 / 4)).
  { replace (80 / 100) with (/ (5 / 4)) by (field; lra).
    apply ln_Rinv. lra. }
  rewrite E.
  replace (- ln (5 / 4) / ln 10) with (- (ln (5 / 4) / ln 10))
    by (unfold Rdiv; ring).
  assert (H := log10_five_fourths). lra.
Qed.

(** [0.9069 < exp(log10(0.8)) < 0.9083]. *)
Lemma literal_adjustment_80 :
  9069 / 10000 < literal_adjustment 80 10 < 9083 / 10000.
Proof.
  unfold literal_adjustment.
  destruct log10_four_fifths as [Hlo Hhi].
  split.
  - apply Rlt_le_trans with (exp (- (10 / 103))).
    + apply Rlt_le_trans with ((1 + - (10 / 103) / 8) ^ 8).
      * cbv [pow]. lra.
      * apply exp_eighth_lower. lra.
    + left. apply exp_increasing. exact Hlo.
  - apply Rlt_le_trans with (exp (- (3 / 31))).
    + apply exp_increasing. exact Hhi.
    + apply Rle_trans with (/ (1 + 3 / 31 / 8) ^ 8).
      * apply exp_eighth_upper. lra.
      * assert (Hpos : 0 < (1 + 3 / 31 / 8) ^ 8) by (apply pow_lt; lra).
        assert (Hnum : 10000 / 9083 <= (1 + 3 / 31 / 8) ^ 8)
          by (cbv [pow]; lra).
        apply (Rmult_le_reg_r ((1 + 3 / 31 / 8) ^ 8)); [exact Hpos |].
        rewrite Rinv_l by lra. lra.
Qed.

End Bounds.

(** ** Values of concrete scenario 1 *)

Section Scenario1.

Lemma scenario1_uses_defaults :
  scenario1 = get_carburacy_default 80 (Some (1 / 2)) (Some (1 / 100)).
Proof. reflexivity. Qed.

Lemma scenario1_train_eq : scenario1_train = literal_adjustment 80 10 * (2 / 3).
Proof. unfold scenario1_train. field. Qed.

Lemma scenario1_test_eq : scenario1_test = literal_adjustment 80 10 / 2.
Proof. unfold scenario1_test. field. Qed.

Lemma scenario1_combined_eq :
  scenario1_combined = literal_adjustment 80 10 * (4 / 7).
Proof.
  unfold scenario1_combined. rewrite scenario1_train_eq, scenario1_test_eq.
  assert (H : 0 < literal_adjustment 80 10) by apply exp_pos.
  field. lra.
Qed.

Lemma scenario1_evaluates :
  scenario1
  = Ok (Some scenario1_train, Some scenario1_test, Some scenario1_combined).
Proof.
  unfold scenario1, scenario1_combined.
  apply get_carburacy_both.
  - apply calculate_carburacy_defined; lra.
  - apply calculate_carburacy_defined; lra.
  - rewrite scenario1_train_eq, scenario1_test_eq.
    assert (H : 0 < literal_adjustment 80 10) by apply exp_pos. lra.
Qed.

Lemma scenario1_bounds :
  6046 / 10000 < scenario1_train < 6056 / 10000 /\
  4534 / 10000 < scenario1_test < 4542 / 10000 /\
  5182 / 10000 < scenario1_combined < 5191 / 10000.
Proof.
  rewrite scenario1_train_eq, scenario1_test_eq, scenario1_combined_eq.
  assert (H := literal_adjustment_80). lra.
Qed.

Lemma approx_between (tol x y : R) :
  y - tol <= x <= y + tol -> approx tol x y.
Proof.
  intros [Hlo Hhi]. unfold approx. apply Rabs_le. lra.
Qed.

Lemma not_approx_above (tol x y : R) : y + tol < x -> ~ approx tol x y.
Proof.
  unfold approx. intros Hgt Habs.
  assert (H := Rle_abs (x - y)). lra.
Qed.

End Scenario1.

(** C3, as stated, fails: in scenario 1 the code returns a training value
    above 0.6046 (not about 0.5333), a test value above 0.4534 (not about
    0.4) and a combined value above 0.5182 (not about 0.457); each is more
    than 0.05 away from the expected number. *)
Lemma scenario1_is_not_as_expected :
  scenario1
  = Ok (Some scenario1_train, Some scenario1_test, Some scenario1_combined) /\
  ~ approx (5 / 100) scenario1_train (5333 / 10000) /\
  ~ approx (5 / 100) scenario1_test (4 / 10) /\
  ~ approx (5 / 100) scenario1_combined (457 / 1000).
Proof.
  destruct scenario1_bounds as (Ht & Hs & Hc).
  split; [exact scenario1_evaluates |].
  repeat split; apply not_approx_above; lra.
Qed.

(** C3, amended.  With score=80, emission_train=0.5, emission_test=0.01,
    alpha=10, beta_train=1, beta_test=100, [get_carburacy] returns
    carburacy_train = exp(log10(0.8))/1.5, about 0.605, carburacy_test =
    exp(log10(0.8))/2, about 0.454, and their harmonic mean, about 0.519,
    each within 0.001. *)
Theorem scenario1_values :
  scenario1
  = Ok (Some scenario1_train, Some scenario1_test, Some scenario1_combined) /\
  scenario1_train = exp (ln (80 / 100) / ln 10) / (1 + 1 / 2 * 1) /\
  scenario1_test = exp (ln (80 / 100) / ln 10) / (1 + 1 / 100 * 100) /\
  scenario1_combined = harmonic_mean scenario1_train scenario1_test /\
  approx (1 / 1000) scenario1_train (605 / 1000) /\
  approx (1 / 1000) scenario1_test (454 / 1000) /\
  approx (1 / 1000) scenario1_combined (519 / 1000).
Proof.
  destruct scenario1_bounds as (Ht & Hs & Hc).
  split; [exact scenario1_evaluates |].
  do 3 (split; [reflexivity |]).
  repeat split; apply approx_between; lra.
Qed.

(** ** Range and monotonicity *)

Section Range.

Variables score alpha : R.
Hypothesis score_range : 0 < score <= 100.
Hypothesis alpha_range : 1 < alpha.






End Range.



(** ** Positivity *)



(** ** The harmonic mean lies between its arguments *)

Section Harmonic.

Variables a b : R.
Hypothesis a_pos : 0 < a.
Hypothesis b_pos : 0 < b.





End Harmonic.






(** * Further properties of the two carburacy functions *)

(** ** Every outcome of [calculate_carburacy] *)







(** ** The score: order and zero emission *)

Section ScoreOrder.

Variables s1 s2 alpha : R.
Hypothesis s1_pos : 0 < s1.
Hypothesis s1_below_s2 : s1 < s2.




End ScoreOrder.







(** ** The combined value in closed form *)






(** ** No exception on the documented domain *)




(** ** The two weights *)



(** ** The base of the logarithm against e *)



(** * Properties of the helper functions *)

(** ** [get_dataset_columns] *)

Section DatasetColumns.

Variable raw_datasets : DatasetDict.
Variable training_args : TrainingArguments.

(** X9.  A returned split is the one of the first set flag in the order
    train, validation, test; it exists in [raw_datasets], and the returned
    columns are its column names. *)
Theorem get_dataset_columns_returns (name : string) (columns : list string) :
  get_dataset_columns raw_datasets training_args = Returns (name, columns) ->
  (exists dataset : Dataset,
     raw_datasets name = Some dataset /\ columns = column_names dataset) /\
  ((name = "train"%string /\ do_train training_args = true) \/
   (name = "validation"%string /\ do_train training_args = false /\
    do_eval training_args = true) \/
   (name = "test"%string /\ do_train training_args = false /\
    do_eval training_args = false /\ do_test training_args = true)).
Proof.
  unfold get_dataset_columns.
  destruct (do_train training_args).
  - destruct (raw_datasets "train"%string) as [d |] eqn:E; [| discriminate].
    intros H. injection H as <- <-.
    split; [exists d; split; [exact E | reflexivity] |].
    left. split; reflexivity.
  - destruct (do_eval training_args).
    + destruct (raw_datasets "validation"%string) as [d |] eqn:E;
        [| discriminate].
      intros H. injection H as <- <-.
      split; [exists d; split; [exact E | reflexivity] |].
      right. left. repeat split; reflexivity.
    + destruct (do_test training_args); [| discriminate].
      destruct (raw_datasets "test"%string) as [d |] eqn:E; [| discriminate].
      intros H. injection H as <- <-.
      split; [exists d; split; [exact E | reflexivity] |].
      right. right. repeat split; reflexivity.
Qed.

(** X10.  [get_dataset_columns] raises [AttributeError] exactly when none
    of the three flags is set, and the [ValueError] of a split exactly when
    that split is the first requested one and is missing: a later requested
    split that exists is not fallen back to. *)
Theorem get_dataset_columns_raises :
  (get_dataset_columns raw_datasets training_args
   = Raises (Attribute_error NothingToDo)
   <-> do_train training_args = false /\ do_eval training_args = false /\
       do_test training_args = false)
  /\
  (get_dataset_columns raw_datasets training_args
   = Raises (Value_error RequiresTrainDataset)
   <-> do_train training_args = true /\ raw_datasets "train"%string = None)
  /\
  (get_dataset_columns raw_datasets training_args
   = Raises (Value_error RequiresValidationDataset)
   <-> do_train training_args = false /\ do_eval training_args = true /\
       raw_datasets "validation"%string = None)
  /\
  (get_dataset_columns raw_datasets training_args
   = Raises (Value_error RequiresTestDataset)
   <-> do_train training_args = false /\ do_eval training_args = false /\
       do_test training_args = true /\ raw_datasets "test"%string = None).
Proof.
  unfold get_dataset_columns.
  destruct (do_train training_args), (do_eval training_args),
    (do_test training_args),
    (raw_datasets "train"%string), (raw_datasets "validation"%string),
    (raw_datasets "test"%string);
    (split; [| split; [| split]]); split; intros H;
    try discriminate H; try reflexivity;
    try (repeat split; reflexivity);
    try (decompose [and] H; discriminate).
Qed.

(** X11.  The resolution written out in [main] agrees with
    [get_dataset_columns] on the columns and on every [ValueError]; the two
    differ only when no flag is set, where the helper raises
    [AttributeError] and [main] logs the same text and returns. *)
Theorem main_column_names_agrees :
  (forall (name : string) (columns : list string),
     get_dataset_columns raw_datasets training_args = Returns (name, columns) ->
     main_column_names raw_datasets training_args
     = (nil, Returns (Some columns)))
  /\
  (forall m : message,
     get_dataset_columns raw_datasets training_args = Raises (Value_error m) ->
     main_column_names raw_datasets training_args
     = (nil, Raises (Value_error m)))
  /\
  (forall m : message,
     get_dataset_columns raw_datasets training_args
     = Raises (Attribute_error m) ->
     main_column_names raw_datasets training_args
     = (Log_info m :: nil, Returns None)).
Proof.
  unfold get_dataset_columns, main_column_names.
  destruct (do_train training_args), (do_eval training_args),
    (do_test training_args),
    (raw_datasets "train"%string), (raw_datasets "validation"%string),
    (raw_datasets "test"%string);
    (split; [| split]); intros; congruence.
Qed.

End DatasetColumns.

(** A dataset dictionary with a validation and a test split and no train
    split. *)
Lemma get_dataset_columns_returns_witness :
  exists dataset : Dataset,
    (fun split : string =>
       if String.eqb split "train" then None
       else Some {| column_names := "full_text"%string :: "lay_text"%string :: nil |})
      "validation"%string = Some dataset /\
    "full_text"%string :: "lay_text"%string :: nil = column_names dataset.
Proof.
  refine (proj1 (get_dataset_columns_returns
            (fun split : string =>
               if String.eqb split "train" then None
               else Some {| column_names :=
                              "full_text"%string :: "lay_text"%string :: nil |})
            {| output_dir := "out"; do_train := false; do_eval := true;
               do_test := true; overwrite_output_dir := false;
               resume_from_checkpoint := None |}
            "validation"%string
            ("full_text"%string :: "lay_text"%string :: nil) _)).
  reflexivity.
Defined.

Lemma get_dataset_columns_raises_witness :
  get_dataset_columns
    (fun split : string =>
       if String.eqb split "train" then None
       else Some {| column_names := "full_text"%string :: nil |})
    {| output_dir := "out"; do_train := true; do_eval := true;
       do_test := false; overwrite_output_dir := false;
       resume_from_checkpoint := None |}
  = Raises (Value_error RequiresTrainDataset).
Proof.
  apply (proj2 (proj1 (proj2 (get_dataset_columns_raises _ _)))).
  split; reflexivity.
Defined.

Lemma main_column_names_agrees_witness :
  main_column_names (fun _ : string => None)
    {| output_dir := "out"; do_train := false; do_eval := false;
       do_test := false; overwrite_output_dir := false;
       resume_from_checkpoint := None |}
  = (Log_info NothingToDo :: nil, Returns None).
Proof.
  apply (proj2 (proj2 (main_column_names_agrees _ _)) NothingToDo).
  reflexivity.
Defined.

(** ** [check_for_last_checkpoint] *)

Section LastCheckpoint.

Variable fs : FileSystem.
Variable training_args : TrainingArguments.

Let dir := output_dir training_args.

(** X12.  [check_for_last_checkpoint] raises, and then a [ValueError]
    naming the output directory with nothing logged, exactly when the output
    directory exists, training is requested without
    [overwrite_output_dir], no checkpoint is found and the directory is not
    empty. *)
Theorem check_for_last_checkpoint_raises :
  ((exists (log : list action) (e : exception),
      check_for_last_checkpoint fs training_args = (log, Raises e))
   <-> isdir fs dir = true /\ do_train training_args = true /\
       overwrite_output_dir training_args = false /\
       get_last_checkpoint fs dir = None /\ listdir fs dir <> nil)
  /\
  (forall (log : list action) (e : exception),
     check_for_last_checkpoint fs training_args = (log, Raises e) ->
     log = nil /\ e = Value_error (OutputDirNotEmpty dir)).
Proof.
  unfold check_for_last_checkpoint, dir.
  destruct (isdir fs (output_dir training_args)),
    (do_train training_args), (overwrite_output_dir training_args),
    (get_last_checkpoint fs (output_dir training_args)),
    (resume_from_checkpoint training_args),
    (listdir fs (output_dir training_args)); cbn;
    first
      [ (* the branches that return *)
        split;
        [ split;
          [ intros (log & e & H); discriminate H
          | intros H; decompose [and] H; congruence ]
        | intros log e H; discriminate H ]
      | (* the branch that raises *)
        split;
        [ split;
          [ intros _; repeat split; discriminate
          | intros _; eexists _, _; reflexivity ]
        | intros log e H; injection H as <- <-; split; reflexivity ] ].
Qed.

(** X13.  A checkpoint is returned only from an existing output
    directory, when training is requested without [overwrite_output_dir],
    and it is the one [get_last_checkpoint] finds there. *)
Theorem check_for_last_checkpoint_returns
    (log : list action) (found : string) :
  check_for_last_checkpoint fs training_args = (log, Returns (Some found)) ->
  isdir fs dir = true /\ do_train training_args = true /\
  overwrite_output_dir training_args = false /\
  get_last_checkpoint fs dir = Some found.
Proof.
  unfold check_for_last_checkpoint, dir.
  destruct (isdir fs (output_dir training_args)); [| discriminate].
  destruct (do_train training_args); [| discriminate].
  destruct (overwrite_output_dir training_args); [discriminate |]. cbn.
  destruct (get_last_checkpoint fs (output_dir training_args)) as [c |].
  - destruct (resume_from_checkpoint training_args);
      intros H; injection H as _ <-; repeat split; reflexivity.
  - destruct (listdir fs (output_dir training_args)); cbn;
      intros H; discriminate H.
Qed.


End LastCheckpoint.

Lemma check_for_last_checkpoint_raises_witness :
  check_for_last_checkpoint
    {| isdir := fun _ => true;
       listdir := fun _ => "notes.txt"%string :: nil;
       get_last_checkpoint := fun _ => None |}
    {| output_dir := "out"; do_train := true; do_eval := false;
       do_test := false; overwrite_output_dir := false;
       resume_from_checkpoint := None |}
  = (nil, Raises (Value_error (OutputDirNotEmpty "out"))).
Proof.
  destruct (check_for_last_checkpoint
              {| isdir := fun _ => true;
                 listdir := fun _ => "notes.txt"%string :: nil;
                 get_last_checkpoint := fun _ => None |}
              {| output_dir := "out"; do_train := true; do_eval := false;
                 do_test := false; overwrite_output_dir := false;
                 resume_from_checkpoint := None |}) as [log [r | e]] eqn:E.
  - discriminate E.
  - destruct (proj2 (check_for_last_checkpoint_raises _ _) log e E)
      as [-> ->].
    reflexivity.
Defined.

Lemma check_for_last_checkpoint_returns_witness :
  get_last_checkpoint
    {| isdir := fun _ => true;
       listdir := fun _ => "checkpoint-500"%string :: nil;
       get_last_checkpoint := fun _ => Some "out/checkpoint-500"%string |}
    "out"
  = Some "out/checkpoint-500"%string.
Proof.
  refine (proj2 (proj2 (proj2 (check_for_last_checkpoint_returns
            {| isdir := fun _ => true;
               listdir := fun _ => "checkpoint-500"%string :: nil;
               get_last_checkpoint := fun _ => Some "out/checkpoint-500"%string |}
            {| output_dir := "out"; do_train := true; do_eval := false;
               do_test := false; overwrite_output_dir := false;
               resume_from_checkpoint := None |}
            (Log_info (CheckpointDetected "out/checkpoint-500") :: nil)
            "out/checkpoint-500" _)))).
  reflexivity.
Defined.


(** ** [check_and_resize_embeddings] *)

Section ResizeEmbeddings.

Variable model : Model.
Variable args : EmbeddingArguments.

Let actions := fst (check_and_resize_embeddings model args).
Let result := snd (check_and_resize_embeddings model args).

(** X15.  The token embeddings are resized exactly when the tokenizer has
    more entries than the embedding matrix has rows, and then to the length
    of the tokenizer, so they never shrink; this happens whether the function
    then returns or raises. *)
Theorem token_embeddings_only_grow (n : Z) :
  In (Resize_token_embeddings n) actions
  <-> (embedding_rows model < tokenizer_length args)%Z /\
      n = tokenizer_length args.
Proof.
  unfold actions, check_and_resize_embeddings.
  destruct model as [rows dec mp], args as [tl msl rp]; cbn.
  destruct (Z.ltb_spec rows tl) as [Hlt | Hge];
    destruct dec as [d |]; try destruct mp as [p |];
    try destruct (p <? msl)%Z; try destruct rp as [[[|] |] |]; cbn;
    split; intros H;
    repeat match goal with
           | H : _ \/ _ |- _ => destruct H
           | H : False |- _ => contradiction
           | H : _ /\ _ |- _ => destruct H
           | H : _ = _ |- _ => first [discriminate H | injection H as <-]
           end;
    try (split; [assumption | reflexivity]);
    try lia; try (left; congruence).
Qed.

(** X16.  The position embeddings are resized only when the function
    returns, only to [max_source_length], and only when that exceeds the
    model's [max_position_embeddings]; the warning is logged first. *)
Theorem position_embeddings_only_grow (n : Z) :
  In (Resize_position_embeddings n) actions ->
  result = Returns tt /\
  n = max_source_length args /\
  exists positions : Z,
    max_position_embeddings model = Present positions /\
    (positions < max_source_length args)%Z /\
    In (Log_warning (ResizingPositionEmbeddings positions n)) actions.
Proof.
  unfold actions, result, check_and_resize_embeddings.
  destruct model as [rows dec mp], args as [tl msl rp]; cbn.
  destruct (rows <? tl)%Z; destruct dec as [d |]; try destruct mp as [p |];
    try destruct (Z.ltb_spec p msl) as [Hlt | Hge];
    try destruct rp as [[[|] |] |]; cbn;
    intros H;
    repeat match goal with
           | H : _ \/ _ |- _ => destruct H
           | H : False |- _ => contradiction
           | H : _ = _ |- _ => first [discriminate H | injection H as <-]
           end;
    (split; [reflexivity | split; [reflexivity |]]);
    exists p; (split; [reflexivity | split; [exact Hlt |]]); cbn; tauto.
Qed.

(** X17.  Every outcome: a missing [decoder_start_token_id] raises its
    [ValueError] whatever else holds; otherwise, when the model's
    [max_position_embeddings] is below [max_source_length], a
    [resize_position_embeddings] of [False] raises the [ValueError] about the
    source length and a missing attribute raises [AttributeError]; in every
    other case the function returns. *)
Theorem check_and_resize_embeddings_outcomes :
  (result = Raises (Value_error DecoderStartTokenNotSet)
   <-> decoder_start_token_id model = None)
  /\
  (forall source positions : Z,
     result = Raises (Value_error (SourceLengthTooLong source positions))
     <-> decoder_start_token_id model <> None /\
         max_position_embeddings model = Present positions /\
         source = max_source_length args /\ (positions < source)%Z /\
         resize_position_embeddings args = Present (Some false))
  /\
  (forall name : string,
     result = Raises (No_attribute name)
     <-> decoder_start_token_id model <> None /\
         (exists positions : Z,
            max_position_embeddings model = Present positions /\
            (positions < max_source_length args)%Z) /\
         resize_position_embeddings args = Missing /\
         name = "resize_position_embeddings"%string)
  /\
  (result = Returns tt
   <-> decoder_start_token_id model <> None /\
       (max_position_embeddings model = Missing \/
        (exists positions : Z,
           max_position_embeddings model = Present positions /\
           ((max_source_length args <= positions)%Z \/
            resize_position_embeddings args = Present None \/
            resize_position_embeddings args = Present (Some true))))).
Proof.
  unfold result, check_and_resize_embeddings.
  destruct model as [rows dec mp], args as [tl msl rp]; cbn.
  destruct dec as [d |]; [destruct mp as [p |];
    [destruct (Z.ltb_spec p msl) as [Hlt | Hge];
      [destruct rp as [[[|] |] |] |] |] |]; cbn.
  all: split; [| split; [| split]].
  all: try (intros source positions); try (intros name).
  all: split; intros H.
  all: try discriminate H; try reflexivity.
  all: try (injection H as <- <-); try (injection H as <-).
  all: repeat match goal with
              | H : _ /\ _ |- _ => destruct H
              | H : exists _, _ |- _ => destruct H
              end.
  all: try congruence.
  all: try (repeat match goal with
                   | H : _ \/ _ |- _ => destruct H
                   | H : exists _, _ |- _ => destruct H
                   | H : _ /\ _ |- _ => destruct H
                   | H : Present _ = Present _ |- _ => injection H as H
                   end; subst; first [lia | congruence]).
  all: try (split; [discriminate |]).
  all: try (left; reflexivity).
  all: try (right; exists p; split; [reflexivity |]; tauto).
  all: try (repeat split; first [reflexivity | assumption | discriminate]).
  all: try (split; [exists p; split; [reflexivity | assumption] |];
            split; reflexivity).
Qed.

End ResizeEmbeddings.

(** X18.  With the [ModelArguments] this script declares, which has no
    [resize_position_embeddings] field, the function never resizes the
    position embeddings and never raises the [ValueError] about the source
    length: whenever the decoder start token is set and the model's
    [max_position_embeddings] is below [max_source_length], the attribute
    lookup raises [AttributeError]. *)
Theorem script_arguments_cannot_resize_positions
    (model : Model) (tokenizer_len source_length : Z) :
  (forall n : Z,
     ~ In (Resize_position_embeddings n)
         (fst (check_and_resize_embeddings model
                 (script_embedding_arguments tokenizer_len source_length))))
  /\
  (forall source positions : Z,
     snd (check_and_resize_embeddings model
            (script_embedding_arguments tokenizer_len source_length))
     <> Raises (Value_error (SourceLengthTooLong source positions)))
  /\
  (forall positions : Z,
     decoder_start_token_id model <> None ->
     max_position_embeddings model = Present positions ->
     (positions < source_length)%Z ->
     snd (check_and_resize_embeddings model
            (script_embedding_arguments tokenizer_len source_length))
     = Raises (No_attribute "resize_position_embeddings")).
Proof.
  unfold check_and_resize_embeddings, script_embedding_arguments.
  destruct model as [rows dec mp]; cbn.
  split; [| split].
  - intros n.
    destruct (rows <? tokenizer_len)%Z; destruct dec as [d |];
      try destruct mp as [p |]; try destruct (p <? source_length)%Z; cbn;
      intros H;
      repeat match goal with
             | H : _ \/ _ |- _ => destruct H
             | H : False |- _ => contradiction
             | H : _ = _ |- _ => discriminate H
             end.
  - intros source positions.
    destruct dec as [d |]; try destruct mp as [p |];
      try destruct (p <? source_length)%Z; cbn; discriminate.
  - intros positions Hdec Hmp Hlt. subst mp.
    destruct dec as [d |]; [| contradiction].
    destruct (Z.ltb_spec positions source_length) as [_ | Hge]; [| lia].
    reflexivity.
Qed.

Lemma script_arguments_cannot_resize_positions_witness :
  snd (check_and_resize_embeddings
         {| embedding_rows := 32100; decoder_start_token_id := Some 0%Z;
            max_position_embeddings := Present 512%Z |}
         (script_embedding_arguments 32100 1024))
  = Raises (No_attribute "resize_position_embeddings").
Proof.
  apply (proj2 (proj2 (script_arguments_cannot_resize_positions
           {| embedding_rows := 32100; decoder_start_token_id := Some 0%Z;
              max_position_embeddings := Present 512%Z |} 32100 1024))
           512%Z).
  - discriminate.
  - reflexivity.
  - reflexivity.
Defined.

Lemma token_embeddings_only_grow_witness :
  In (Resize_token_embeddings 32128)
     (fst (check_and_resize_embeddings
             {| embedding_rows := 32100; decoder_start_token_id := None;
                max_position_embeddings := Missing |}
             {| tokenizer_length := 32128; max_source_length := 1024;
                resize_position_embeddings := Present None |})).
Proof.
  apply (proj2 (token_embeddings_only_grow
           {| embedding_rows := 32100; decoder_start_token_id := None;
              max_position_embeddings := Missing |}
           {| tokenizer_length := 32128; max_source_length := 1024;
              resize_position_embeddings := Present None |} 32128)).
  split; reflexivity.
Defined.

Lemma position_embeddings_only_grow_witness :
  snd (check_and_resize_embeddings
         {| embedding_rows := 32100; decoder_start_token_id := Some 0%Z;
            max_position_embeddings := Present 512%Z |}
         {| tokenizer_length := 32100; max_source_length := 1024;
            resize_position_embeddings := Present None |})
  = Returns tt.
Proof.
  refine (proj1 (position_embeddings_only_grow
            {| embedding_rows := 32100; decoder_start_token_id := Some 0%Z;
               max_position_embeddings := Present 512%Z |}
            {| tokenizer_length := 32100; max_source_length := 1024;
               resize_position_embeddings := Present None |} 1024 _)).
  cbn. right. left. reflexivity.
Defined.

Lemma check_and_resize_embeddings_outcomes_witness :
  snd (check_and_resize_embeddings
         {| embedding_rows := 32100; decoder_start_token_id := Some 0%Z;
            max_position_embeddings := Present 512%Z |}
         {| tokenizer_length := 32100; max_source_length := 1024;
            resize_position_embeddings := Present (Some false) |})
  = Raises (Value_error (SourceLengthTooLong 1024 512)).
Proof.
  apply (proj2 (proj1 (proj2 (check_and_resize_embeddings_outcomes
           {| embedding_rows := 32100; decoder_start_token_id := Some 0%Z;
              max_position_embeddings := Present 512%Z |}
           {| tokenizer_length := 32100; max_source_length := 1024;
              resize_position_embeddings := Present (Some false) |}))
           1024%Z 512%Z)).
  repeat split; try reflexivity. discriminate.
Defined.

(** * Properties of the pure parts of [main] *)

(** ** Padding tokens *)

Section PadTokens.

Variable pad_token_id : Z.

Let mask_token (l : Z) : Z :=
  if negb (l =? pad_token_id)%Z then l else (-100)%Z.
Let restore_token (l : Z) : Z :=
  if negb (l =? -100)%Z then l else pad_token_id.

Lemma restore_mask_token (l : Z) : restore_token (mask_token l) = restore_token l.
Proof.
  unfold restore_token, mask_token.
  destruct (Z.eqb_spec l pad_token_id) as [-> | Hpad]; cbn.
  - destruct (Z.eqb_spec pad_token_id (-100)) as [E | _]; cbn; congruence.
  - reflexivity.
Qed.

Lemma restore_token_id (l : Z) : l <> (-100)%Z -> restore_token l = l.
Proof.
  intros Hl. unfold restore_token.
  destruct (Z.eqb_spec l (-100)) as [E | _]; [contradiction | reflexivity].
Qed.

Lemma restore_mask_rows (labels : list (list Z)) :
  restore_pad_tokens pad_token_id (mask_pad_tokens pad_token_id labels)
  = restore_pad_tokens pad_token_id labels.
Proof.
  unfold restore_pad_tokens, mask_pad_tokens.
  rewrite map_map. apply map_ext. intros label.
  rewrite map_map. apply map_ext. intros l.
  exact (restore_mask_token l).
Qed.

Lemma restore_rows_id (labels : list (list Z)) :
  Forall (Forall (fun l => l <> (-100)%Z)) labels ->
  restore_pad_tokens pad_token_id labels = labels.
Proof.
  unfold restore_pad_tokens. intros Hall.
  induction Hall as [| label rest Hrow _ IH]; cbn; [reflexivity |].
  rewrite IH. f_equal.
  induction Hrow as [| l row Hl _ IHrow]; cbn; [reflexivity |].
  rewrite IHrow. f_equal. exact (restore_token_id l Hl).
Qed.

End PadTokens.

(** X19.  Masking the padding tokens of the labels with -100 and then
    replacing -100 by the padding token, as [compute_metrics] does, gives
    back the labels whenever none of them is -100 to begin with; in general
    it gives what the replacement alone gives. *)
Theorem pad_tokens_round_trip (pad_token_id : Z) (labels : list (list Z)) :
  restore_pad_tokens pad_token_id (mask_pad_tokens pad_token_id labels)
  = restore_pad_tokens pad_token_id labels
  /\
  (Forall (Forall (fun l => l <> (-100)%Z)) labels ->
   restore_pad_tokens pad_token_id (mask_pad_tokens pad_token_id labels)
   = labels).
Proof.
  split.
  - apply restore_mask_rows.
  - intros Hall. rewrite restore_mask_rows. apply restore_rows_id. exact Hall.
Qed.

Lemma pad_tokens_round_trip_witness :
  restore_pad_tokens 0 (mask_pad_tokens 0 ((5 :: 7 :: 0 :: 0 :: nil) :: nil))%Z
  = ((5 :: 7 :: 0 :: 0 :: nil) :: nil)%Z.
Proof.
  apply (proj2 (pad_tokens_round_trip 0 ((5 :: 7 :: 0 :: 0 :: nil) :: nil)%Z)).
  repeat constructor; discriminate.
Defined.

(** X20.  When the padding token is not -100, the masked labels contain no
    padding token and the restored labels contain no -100; both rewritings
    keep the number of rows and the length of every row. *)
Theorem pad_tokens_are_replaced (pad_token_id : Z) (labels : list (list Z)) :
  pad_token_id <> (-100)%Z ->
  Forall (Forall (fun l => l <> pad_token_id))
         (mask_pad_tokens pad_token_id labels) /\
  Forall (Forall (fun l => l <> (-100)%Z))
         (restore_pad_tokens pad_token_id labels) /\
  map (@List.length Z) (mask_pad_tokens pad_token_id labels)
  = map (@List.length Z) labels /\
  map (@List.length Z) (restore_pad_tokens pad_token_id labels)
  = map (@List.length Z) labels.
Proof.
  intros Hpad. unfold mask_pad_tokens, restore_pad_tokens.
  repeat split.
  - apply Forall_map, Forall_forall. intros label _.
    apply Forall_map, Forall_forall. intros l _.
    destruct (Z.eqb_spec l pad_token_id) as [E | N]; cbn; congruence.
  - apply Forall_map, Forall_forall. intros label _.
    apply Forall_map, Forall_forall. intros l _.
    destruct (Z.eqb_spec l (-100)) as [E | N]; cbn; congruence.
  - rewrite map_map. apply map_ext. intros label. apply length_map.
  - rewrite map_map. apply map_ext. intros label. apply length_map.
Qed.

Lemma pad_tokens_are_replaced_witness :
  Forall (Forall (fun l => l <> 0%Z))
         (mask_pad_tokens 0 ((5 :: 0 :: nil) :: nil)%Z).
Proof.
  apply (proj1 (pad_tokens_are_replaced 0 ((5 :: 0 :: nil) :: nil)%Z
                  ltac:(discriminate))).
Defined.

(** ** The example pairs *)

Section ExamplePairs.

Let both_true (row : option string * option string) : bool :=
  truthy (fst row) && truthy (snd row).

Lemma nth_error_middle {A : Type} (pre post : list A) (x : A) :
  nth_error (pre ++ x :: post) (List.length pre) = Some x.
Proof.
  induction pre as [| y pre IH]; [reflexivity | exact IH].
Qed.

Lemma app_middle {A : Type} (pre post : list A) (x : A) :
  pre ++ x :: post = (pre ++ x :: nil) ++ post.
Proof. rewrite <- app_assoc. reflexivity. Qed.

(** The loop, started at any row, appends the rows from there on whose
    text and summary are both true. *)
Lemma select_pairs_loop_spec (post spost : list (option string)) :
  forall (pre spre inputs targets : list (option string)),
    List.length spre = List.length pre ->
    (List.length post <= List.length spost)%nat ->
    select_pairs_loop (pre ++ post) (spre ++ spost)
      (seq (List.length pre) (List.length post)) inputs targets
    = Returns
        (inputs ++ map fst (filter both_true (combine post spost)),
         targets ++ map snd (filter both_true (combine post spost))).
Proof.
  revert spost.
  induction post as [| text post IH]; intros spost pre spre inputs targets
    Hpre Hlen.
  - cbn. rewrite !app_nil_r. reflexivity.
  - destruct spost as [| summary spost]; [cbn in Hlen; lia |].
    cbn in Hlen. cbn [List.length seq select_pairs_loop].
    rewrite nth_error_middle.
    rewrite <- Hpre, nth_error_middle.
    assert (Hnext : forall ins tgs,
               select_pairs_loop (pre ++ text :: post) (spre ++ summary :: spost)
                 (seq (S (List.length spre)) (List.length post)) ins tgs
               = Returns
                   (ins ++ map fst (filter both_true (combine post spost)),
                    tgs ++ map snd (filter both_true (combine post spost)))).
    { intros ins tgs.
      rewrite (app_middle pre), (app_middle spre).
      replace (S (List.length spre))
        with (List.length (pre ++ text :: nil))
        by (rewrite length_app; cbn; lia).
      apply IH; [rewrite !length_app; cbn; lia | lia]. }
    change (filter both_true (combine (text :: post) (summary :: spost)))
      with (if both_true (text, summary)
            then (text, summary) :: filter both_true (combine post spost)
            else filter both_true (combine post spost)).
    change (both_true (text, summary)) with (truthy text && truthy summary).
    destruct (truthy text); [destruct (truthy summary) |]; cbn [andb];
      rewrite Hnext; [| reflexivity | reflexivity].
    cbn [map fst snd]. rewrite <- !app_assoc. reflexivity.
Qed.

Lemma combine_fst_snd {A B : Type} (rows : list (A * B)) :
  combine (map fst rows) (map snd rows) = rows.
Proof.
  induction rows as [| [a b] rows IH]; cbn; [reflexivity |].
  rewrite IH. reflexivity.
Qed.

Lemma select_pairs_value (texts summaries : list (option string)) :
  (List.length texts <= List.length summaries)%nat ->
  select_pairs texts summaries
  = Returns (map fst (filter both_true (combine texts summaries)),
             map snd (filter both_true (combine texts summaries))).
Proof.
  intros Hlen. unfold select_pairs.
  exact (select_pairs_loop_spec texts summaries nil nil nil nil eq_refl Hlen).
Qed.

End ExamplePairs.

(** X21.  When the summary column is at least as long as the text column,
    the loop of [preprocess_function] returns two lists of the same length
    that pair up to exactly the rows whose text and summary are both true
    (neither [None] nor empty), in their order. *)
Theorem select_pairs_keeps_complete_rows
    (texts summaries : list (option string)) :
  (List.length texts <= List.length summaries)%nat ->
  exists inputs targets : list (option string),
    select_pairs texts summaries = Returns (inputs, targets) /\
    List.length inputs = List.length targets /\
    combine inputs targets
    = filter (fun row => truthy (fst row) && truthy (snd row))
             (combine texts summaries) /\
    Forall (fun entry => truthy entry = true) inputs /\
    Forall (fun entry => truthy entry = true) targets.
Proof.
  intros Hlen.
  set (rows := filter (fun row => truthy (fst row) && truthy (snd row))
                      (combine texts summaries)).
  exists (map fst rows), (map snd rows).
  assert (Hrows : Forall (fun row => truthy (fst row) && truthy (snd row) = true)
                         rows).
  { apply Forall_forall. intros row Hin. apply filter_In in Hin. apply Hin. }
  split; [apply select_pairs_value; exact Hlen |].
  split; [rewrite !length_map; reflexivity |].
  split; [apply combine_fst_snd |].
  split; apply Forall_map; (eapply Forall_impl; [| exact Hrows]);
    intros row H; apply andb_true_iff in H; apply H.
Qed.

Lemma select_pairs_keeps_complete_rows_witness :
  exists inputs targets : list (option string),
    select_pairs (Some "a" :: None :: Some "" :: Some "b" :: nil)%string
                 (Some "x" :: Some "y" :: Some "z" :: None :: nil)%string
    = Returns (inputs, targets) /\
    List.length inputs = List.length targets.
Proof.
  destruct (select_pairs_keeps_complete_rows
              (Some "a" :: None :: Some "" :: Some "b" :: nil)%string
              (Some "x" :: Some "y" :: Some "z" :: None :: nil)%string
              ltac:(cbn; lia))
    as (inputs & targets & Hret & Hlen & _).
  exists inputs, targets. split; [exact Hret | exact Hlen].
Defined.

(** X22.  As the script stands, [preprocess_function] gets past the
    prefixing of its inputs only when no row has both a text and a summary:
    as soon as one row is kept, evaluating the unassigned name [prefix]
    raises [NameError]. *)
Theorem preprocess_function_needs_prefix
    (texts summaries : list (option string)) :
  (List.length texts <= List.length summaries)%nat ->
  (filter (fun row => truthy (fst row) && truthy (snd row))
          (combine texts summaries) = nil ->
   preprocess_function_pairs texts summaries = Returns (nil, nil))
  /\
  (filter (fun row => truthy (fst row) && truthy (snd row))
          (combine texts summaries) <> nil ->
   preprocess_function_pairs texts summaries
   = Raises (Name_error "prefix")).
Proof.
  intros Hlen. unfold preprocess_function_pairs.
  rewrite (select_pairs_value texts summaries Hlen). cbn [outcome_bind fst snd].
  destruct (filter _ (combine texts summaries)) as [| row rows].
  - split; [reflexivity | intros N; contradiction].
  - split; [intros E; discriminate E | reflexivity].
Qed.

Lemma preprocess_function_needs_prefix_witness :
  preprocess_function_pairs (Some "a" :: None :: nil)%string
                            (Some "x" :: Some "y" :: nil)%string
  = Raises (Name_error "prefix").
Proof.
  apply (proj2 (preprocess_function_needs_prefix
                  (Some "a" :: None :: nil)%string
                  (Some "x" :: Some "y" :: nil)%string ltac:(cbn; lia))).
  cbn. discriminate.
Defined.

(** ** The output directory and the run name *)

Section RunName.

Local Open Scope string_scope.

Lemma split_slash_nonempty (s : string) : split_slash s <> nil.
Proof.
  destruct s as [| c rest]; cbn; [discriminate |].
  destruct (Ascii.eqb c "/"); [discriminate |].
  destruct (split_slash rest); discriminate.
Qed.

(** Splitting around a slash splits both sides. *)
Lemma split_slash_app (a b : string) :
  split_slash (a ++ "/" ++ b) = (split_slash a ++ split_slash b)%list.
Proof.
  induction a as [| c a IH]; [reflexivity |].
  cbn [append split_slash]. cbn [append] in IH. rewrite IH.
  destruct (Ascii.eqb c "/"); [reflexivity |].
  destruct (split_slash a) as [| first others] eqn:E; [| reflexivity].
  exfalso. exact (split_slash_nonempty a E).
Qed.

(** A string that [split] leaves whole has nothing after a slash. *)
Lemma partition_slash_last_whole (s : string) :
  split_slash s = s :: nil -> partition_slash_last s = "".
Proof.
  induction s as [| c rest IH]; [reflexivity |].
  cbn [split_slash partition_slash_last].
  destruct (Ascii.eqb c "/"); [intros E; discriminate E |].
  destruct (split_slash rest) as [| first others] eqn:E.
  - exfalso. exact (split_slash_nonempty rest E).
  - intros H. injection H as -> ->. apply IH. reflexivity.
Qed.

Lemma partition_slash_last_app (org name : string) :
  split_slash org = org :: nil ->
  partition_slash_last (org ++ "/" ++ name) = name.
Proof.
  induction org as [| c rest IH]; [reflexivity |].
  cbn [split_slash append partition_slash_last].
  destruct (Ascii.eqb c "/"); [intros E; discriminate E |].
  destruct (split_slash rest) as [| first others] eqn:E.
  - exfalso. exact (split_slash_nonempty rest E).
  - intros H. injection H as -> ->. apply IH. reflexivity.
Qed.

End RunName.

(** X23.  The run name [output_dir.split("/")[1]] of the new output
    directory always exists, so the lookup never raises [IndexError]; when
    the output directory given on the command line already contains a slash,
    the run name is its second component, whatever the task, the model and
    the subset are; when it contains none, the run name is the first
    component of the appended [task_model_subset] part. *)
Theorem wandb_run_name_defined
    (old_output_dir : string) (task_name : option string)
    (model_name_or_path : string) (subset_name : option string) :
  exists name : string,
    wandb_run_name
      (run_output_dir old_output_dir task_name model_name_or_path subset_name)
    = Returns name /\
    (forall (first second : string) (more : list string),
       split_slash old_output_dir = first :: second :: more ->
       name = second) /\
    (split_slash old_output_dir = old_output_dir :: nil ->
     exists others : list string,
       split_slash
         (format_optional task_name ++ "_"
          ++ partition_slash_last model_name_or_path ++ "_"
          ++ format_optional subset_name)%string
       = name :: others).
Proof.
  unfold wandb_run_name, run_output_dir.
  rewrite split_slash_app.
  set (suffix := (format_optional task_name ++ "_"
                  ++ partition_slash_last model_name_or_path ++ "_"
                  ++ format_optional subset_name)%string).
  destruct (split_slash old_output_dir) as [| first [| second more]] eqn:Eold.
  - exfalso. exact (split_slash_nonempty old_output_dir Eold).
  - destruct (split_slash suffix) as [| name others] eqn:Esuf.
    + exfalso. exact (split_slash_nonempty suffix Esuf).
    + exists name. cbn. split; [reflexivity |]. split.
      * intros f s m E. discriminate E.
      * intros _. exists others. reflexivity.
  - exists second. cbn. split; [reflexivity |]. split.
    + intros f s m E. injection E as _ <- _. reflexivity.
    + intros E. discriminate E.
Qed.

Lemma wandb_run_name_defined_witness :
  exists name : string,
    wandb_run_name
      (run_output_dir "./results" (Some "lay"%string) "google/flan-t5"
         (Some "plos"%string))
    = Returns name /\ name = "results"%string.
Proof.
  destruct (wandb_run_name_defined
              "./results" (Some "lay"%string) "google/flan-t5"
              (Some "plos"%string))
    as (name & Hret & Hsecond & _).
  exists name. split; [exact Hret |].
  apply (Hsecond "."%string "results"%string nil). reflexivity.
Defined.

(** X24.  The model part of the new output directory is what follows the
    first slash of [model_name_or_path]: for [org/name] it is [name], and
    for a model name without a slash it is empty, leaving
    [output_dir/task__subset]. *)
Theorem run_output_dir_model_part
    (old_output_dir : string) (task_name : option string)
    (subset_name : option string) :
  (forall model_name : string,
     split_slash model_name = model_name :: nil ->
     run_output_dir old_output_dir task_name model_name subset_name
     = (old_output_dir ++ "/" ++ format_optional task_name ++ "__"
        ++ format_optional subset_name)%string)
  /\
  (forall org name : string,
     split_slash org = org :: nil ->
     run_output_dir old_output_dir task_name (org ++ "/" ++ name) subset_name
     = (old_output_dir ++ "/" ++ format_optional task_name ++ "_"
        ++ name ++ "_" ++ format_optional subset_name)%string).
Proof.
  unfold run_output_dir. split.
  - intros model_name Hwhole.
    rewrite (partition_slash_last_whole model_name Hwhole). reflexivity.
  - intros org name Hwhole.
    rewrite (partition_slash_last_app org name Hwhole). reflexivity.
Qed.

Lemma run_output_dir_model_part_witness :
  run_output_dir "out" (Some "lay"%string) "t5-small" None
  = "out/lay__None"%string.
Proof.
  apply (proj1 (run_output_dir_model_part "out" (Some "lay"%string) None)
           "t5-small"%string).
  reflexivity.
Defined.

(** ** The BART scores *)

Section BartScores.






End BartScores.



(** ** The ROUGE aggregate *)

Section RougeAggregate.

Variables rouge1 rouge2 rougeL : R.

Let mean3 : R := (rouge1 + rouge2 + rougeL) / 3.
Let var3 : R :=
  ((rouge1 / 100 - mean3 / 100) ^ 2 + (rouge2 / 100 - mean3 / 100) ^ 2
   + (rougeL / 100 - mean3 / 100) ^ 2) / 3.

Lemma np_mean_three : np_mean (rouge1 :: rouge2 :: rougeL :: nil) = mean3.
Proof. unfold np_mean, sum_list, mean3. cbn. field. Qed.

Lemma np_var_three :
  np_var (rouge1 / 100 :: rouge2 / 100 :: rougeL / 100 :: nil) = var3.
Proof. unfold np_var, np_mean, sum_list, var3, mean3. cbn. field. Qed.

Lemma var3_nonneg : 0 <= var3.
Proof.
  unfold var3.
  assert (H1 := pow2_ge_0 (rouge1 / 100 - mean3 / 100)).
  assert (H2 := pow2_ge_0 (rouge2 / 100 - mean3 / 100)).
  assert (H3 := pow2_ge_0 (rougeL / 100 - mean3 / 100)).
  lra.
Qed.

Lemma square_zero (x : R) : x ^ 2 = 0 -> x = 0.
Proof.
  intros H. cbn in H. rewrite Rmult_1_r in H.
  apply Rmult_integral in H. destruct H; assumption.
Qed.

Lemma var3_zero : var3 = 0 -> rouge1 = rouge2 /\ rouge2 = rougeL.
Proof.
  unfold var3. intros Hz.
  assert (H1 := pow2_ge_0 (rouge1 / 100 - mean3 / 100)).
  assert (H2 := pow2_ge_0 (rouge2 / 100 - mean3 / 100)).
  assert (H3 := pow2_ge_0 (rougeL / 100 - mean3 / 100)).
  assert (Z1 : (rouge1 / 100 - mean3 / 100) ^ 2 = 0) by lra.
  assert (Z2 : (rouge2 / 100 - mean3 / 100) ^ 2 = 0) by lra.
  assert (Z3 : (rougeL / 100 - mean3 / 100) ^ 2 = 0) by lra.
  apply square_zero in Z1. apply square_zero in Z2. apply square_zero in Z3.
  lra.
Qed.

Lemma var3_equal : rouge1 = rouge2 -> rouge2 = rougeL -> var3 = 0.
Proof.
  intros E1 E2. unfold var3, mean3. subst rouge1 rouge2. field.
Qed.

Lemma rouge_R_value : rouge_R rouge1 rouge2 rougeL = mean3 / (1 + var3).
Proof. unfold rouge_R. rewrite np_mean_three, np_var_three. reflexivity. Qed.

End RougeAggregate.

(** X26.  The number rounded into [result["R"]] is the mean of the three
    ROUGE scores divided by one plus the variance of their hundredths: the
    divisor is at least 1, so the division never fails, and for non-negative
    scores the number lies between 0 and their mean, reaching the mean
    exactly when the three scores are equal. *)
Theorem rouge_R_bounded_by_mean (rouge1 rouge2 rougeL : R) :
  0 <= rouge1 -> 0 <= rouge2 -> 0 <= rougeL ->
  1 <= 1 + np_var (rouge1 / 100 :: rouge2 / 100 :: rougeL / 100 :: nil) /\
  0 <= rouge_R rouge1 rouge2 rougeL
    <= np_mean (rouge1 :: rouge2 :: rougeL :: nil) /\
  (rouge_R rouge1 rouge2 rougeL = np_mean (rouge1 :: rouge2 :: rougeL :: nil)
   <-> rouge1 = rouge2 /\ rouge2 = rougeL).
Proof.
  intros H1 H2 HL.
  rewrite rouge_R_value, np_mean_three, np_var_three.
  set (m := (rouge1 + rouge2 + rougeL) / 3).
  set (v := ((rouge1 / 100 - m / 100) ^ 2 + (rouge2 / 100 - m / 100) ^ 2
             + (rougeL / 100 - m / 100) ^ 2) / 3).
  assert (Hv : 0 <= v) by apply var3_nonneg.
  assert (Hm : 0 <= m) by (unfold m; lra).
  assert (Hd : 0 < 1 + v) by lra.
  assert (Hmv : 0 <= m * v) by (apply Rmult_le_pos; assumption).
  assert (Hq : m / (1 + v) * (1 + v) = m) by (field; lra).
  split; [lra |]. split; [split |].
  - apply Rmult_le_pos; [exact Hm |]. left. apply Rinv_0_lt_compat. exact Hd.
  - apply (Rmult_le_reg_r (1 + v)); [exact Hd |]. rewrite Hq. lra.
  - split.
    + intros E. rewrite E in Hq.
      assert (Hz : m * v = 0) by lra.
      apply Rmult_integral in Hz. destruct Hz as [Hz | Hz].
      * unfold m in Hz. lra.
      * apply var3_zero. exact Hz.
    + intros [E1 E2].
      assert (Hz : v = 0) by (apply var3_equal; assumption).
      rewrite Hz. field.
Qed.

Lemma rouge_R_bounded_by_mean_witness :
  0 <= rouge_R 40 20 30 <= np_mean (40 :: 20 :: 30 :: nil).
Proof.
  apply (rouge_R_bounded_by_mean 40 20 30); lra.
Defined.

(** ** The parameter groups *)

Section ParameterGroups.

Context {P : Type}.
Variable keep : string * P -> bool.

Lemma filter_split_length (rows : list (string * P)) :
  (List.length (filter (fun row => negb (keep row)) rows)
   + List.length (filter keep rows))%nat
  = List.length rows.
Proof.
  induction rows as [| row rows IH]; [reflexivity |].
  cbn. destruct (keep row); cbn; lia.
Qed.

End ParameterGroups.

(** X27.  The optimizer gets exactly two groups, the first with the
    configured weight decay and the second with none; a named parameter is in
    the second group exactly when its name contains [bias],
    [LayerNorm.weight] or [layer_norm.weight], in the first group otherwise,
    and the two groups together have as many entries as there are named
    parameters. *)
Theorem optimizer_groups_partition
    {P : Type} (named_parameters : list (string * P)) (weight_decay : R) :
  exists decayed undecayed : list P,
    optimizer_grouped_parameters named_parameters weight_decay
    = (decayed, weight_decay) :: (undecayed, 0) :: nil /\
    (List.length decayed + List.length undecayed)%nat
    = List.length named_parameters /\
    (forall p : P,
       In p undecayed <->
       exists n : string,
         In (n, p) named_parameters /\
         (occurs_in "bias" n = true \/ occurs_in "LayerNorm.weight" n = true
          \/ occurs_in "layer_norm.weight" n = true)) /\
    (forall p : P,
       In p decayed <->
       exists n : string,
         In (n, p) named_parameters /\
         occurs_in "bias" n = false /\ occurs_in "LayerNorm.weight" n = false
         /\ occurs_in "layer_norm.weight" n = false).
Proof.
  eexists _, _. split; [reflexivity |]. split; [| split].
  - rewrite !length_map. apply filter_split_length.
  - intros p. rewrite in_map_iff. split.
    + intros [[n q] [E Hin]]. cbn in E. subst q.
      apply filter_In in Hin. destruct Hin as [Hin Hany].
      exists n. split; [exact Hin |].
      unfold any_no_decay, no_decay in Hany. cbn in Hany.
      rewrite orb_false_r in Hany.
      apply orb_true_iff in Hany. destruct Hany as [H | H]; [left; exact H |].
      apply orb_true_iff in H. destruct H as [H | H];
        [right; left; exact H | right; right; exact H].
    + intros [n [Hin Hany]]. exists (n, p). split; [reflexivity |].
      apply filter_In. split; [exact Hin |].
      unfold any_no_decay, no_decay. cbn. rewrite orb_false_r.
      destruct Hany as [H | [H | H]]; rewrite H;
        rewrite ?orb_true_r; reflexivity.
  - intros p. rewrite in_map_iff. split.
    + intros [[n q] [E Hin]]. cbn in E. subst q.
      apply filter_In in Hin. destruct Hin as [Hin Hany].
      exists n. split; [exact Hin |].
      unfold any_no_decay, no_decay in Hany. cbn in Hany.
      rewrite orb_false_r in Hany. apply negb_true_iff in Hany.
      apply orb_false_iff in Hany. destruct Hany as [H1 H].
      apply orb_false_iff in H. destruct H as [H2 H3].
      repeat split; assumption.
    + intros [n [Hin (H1 & H2 & H3)]]. exists (n, p). split; [reflexivity |].
      apply filter_In. split; [exact Hin |].
      unfold any_no_decay, no_decay. cbn. rewrite H1, H2, H3. reflexivity.
Qed.

Lemma optimizer_groups_partition_witness :
  exists decayed undecayed : list nat,
    optimizer_grouped_parameters
      (("shared.weight"%string, 1%nat)
       :: ("encoder.final_layer_norm.weight"%string, 2%nat)
       :: ("lm_head.bias"%string, 3%nat) :: nil) (1 / 100)
    = (decayed, 1 / 100) :: (undecayed, 0) :: nil /\
    (List.length decayed + List.length undecayed)%nat = 3%nat.
Proof.
  destruct (optimizer_groups_partition
              (("shared.weight"%string, 1%nat)
               :: ("encoder.final_layer_norm.weight"%string, 2%nat)
               :: ("lm_head.bias"%string, 3%nat) :: nil) (1 / 100))
    as (decayed & undecayed & Hgroups & Hlen & _).
  exists decayed, undecayed. split; [exact Hgroups | exact Hlen].
Defined.
